(** * Timer: the start/stop state machine and the shared registry

    A shallow embedding of [Timer.py] (class [Timer], class [TimerError]).
    The embedding starts at the class body: every method is written as a
    computation in a state-and-exception monad over the receiving instance,
    the class-level dictionary [Timer.timers] and the clock.

    Python values that the methods handle are the constructors of [value];
    Python exceptions are the constructors of [exn].  Builtins that live
    outside the file ([time.perf_counter], [str.format], the printing of a
    float) are parameters of the section [Runtime].  The import line
    [import functools.wraps] is outside the embedding: [functools.wraps]
    is taken as the standard decorator, which only copies the metadata of
    [funcion] onto the wrapper. *)

From Stdlib Require Import ZArith String Ascii List Bool Lia.
From Stdlib Require Import DecimalString.
From Stdlib Require Import Floats.
Import ListNotations.

Local Open Scope string_scope.
Local Open Scope Z_scope.

(** ** Python values and exceptions *)

(** [VBuiltin q] is the function object of qualified name [q];
    [VSelf] is the reference to the receiving [Timer] instance. *)
Inductive value : Type :=
| VNone
| VInt (z : Z)
| VFloat (f : float)
| VStr (s : string)
| VBuiltin (qualname : string)
| VSelf.

(** [Raised cls msg] stands for any exception of client code. *)
Inductive exn : Type :=
| TimerError (msg : string)
| TypeError
| UnboundLocalError (var : string)
| AttributeError (attr : string)
| KeyError (key : value)
| OverflowError
| NameError (var : string)
| Raised (cls msg : string).

Definition outcome (A : Type) : Type := (exn + A)%type.

(** The three messages with which the file raises [TimerError]. *)
Definition AlreadyRunning : exn :=
  TimerError "Timer is running. Use .stop() to stop it".
Definition NotRunning : exn :=
  TimerError "Timer is not running. Use .start() to start it.".
Definition UnknownTimer (name : string) : exn :=
  TimerError ("No timer called " ++ name ++ " found.").

(** ** Arithmetic of Python numbers *)

(** [float(z)]: nearest binary64, [OverflowError] beyond the finite range. *)
Definition float_of_int (z : Z) : outcome float :=
  let f := SF2Prim (binary_normalize prec emax z 0 false) in
  if PrimFloat.is_infinity f then inl OverflowError else inr f.

(** [a - b] *)
Definition py_sub (a b : value) : outcome value :=
  match a, b with
  | VInt x, VInt y => inr (VInt (x - y))
  | VFloat x, VFloat y => inr (VFloat (PrimFloat.sub x y))
  | VInt x, VFloat y =>
      match float_of_int x with
      | inr x' => inr (VFloat (PrimFloat.sub x' y))
      | inl e => inl e
      end
  | VFloat x, VInt y =>
      match float_of_int y with
      | inr y' => inr (VFloat (PrimFloat.sub x y'))
      | inl e => inl e
      end
  | _, _ => inl TypeError
  end.

(** [a + b] *)
Definition py_add (a b : value) : outcome value :=
  match a, b with
  | VInt x, VInt y => inr (VInt (x + y))
  | VFloat x, VFloat y => inr (VFloat (PrimFloat.add x y))
  | VInt x, VFloat y =>
      match float_of_int x with
      | inr x' => inr (VFloat (PrimFloat.add x' y))
      | inl e => inl e
      end
  | VFloat x, VInt y =>
      match float_of_int y with
      | inr y' => inr (VFloat (PrimFloat.add x y'))
      | inl e => inl e
      end
  | VStr x, VStr y => inr (VStr (x ++ y))
  | _, _ => inl TypeError
  end.

(** A number that is not below zero. *)
Definition nonneg (v : value) : bool :=
  match v with
  | VInt z => 0 <=? z
  | VFloat f => PrimFloat.leb PrimFloat.zero f
  | _ => false
  end.

(** ** Dictionaries with string keys, in insertion order *)

Definition dict : Type := list (string * value).

Fixpoint dict_get (k : string) (d : dict) : option value :=
  match d with
  | [] => None
  | (k', v) :: d' => if String.eqb k k' then Some v else dict_get k d'
  end.

(** [d[k] = v]: an existing key keeps its place, a new key goes last. *)
Fixpoint dict_set (k : string) (v : value) (d : dict) : dict :=
  match d with
  | [] => [(k, v)]
  | (k', v') :: d' =>
      if String.eqb k k' then (k', v) :: d' else (k', v') :: dict_set k v d'
  end.

(** [d.setdefault(k, v)], the dictionary afterwards. *)
Definition setdefault (k : string) (v : value) (d : dict) : dict :=
  match dict_get k d with
  | Some _ => d
  | None => dict_set k v d
  end.

(** [bool(d)] *)
Definition dict_truthy (d : dict) : bool :=
  match d with [] => false | _ :: _ => true end.

(** ** Instances and the state the methods run in *)

(** The four attributes [__init__] sets.  A logger is an opaque callable,
    known by a handle. *)
Record Timer : Type := mkTimer {
  _start_time : option float;
  _name : option string;
  _text : string;
  _logger : option nat
}.

(** [self], the class attribute [Timer.timers], and the number of clock
    readings taken so far. *)
Record State : Type := mkState {
  self : Timer;
  timers : dict;
  reads : nat
}.

(** [bool(name)] for [name: str = None] *)
Definition name_truthy (name : option string) : bool :=
  match name with
  | Some s => negb (String.eqb s "")
  | None => false
  end.

Definition default_text : string := "Task took: {:0.6f} seconds.".

(** ** The monad of method bodies *)

Definition M (A : Type) : Type := State -> outcome A * State.

Definition ret {A} (a : A) : M A := fun s => (inr a, s).
Definition raise {A} (e : exn) : M A := fun s => (inl e, s).
Definition bind {A B} (m : M A) (k : A -> M B) : M B :=
  fun s =>
    match m s with
    | (inr a, s') => k a s'
    | (inl e, s') => (inl e, s')
    end.

Notation "x <- m ;; k" := (bind m (fun x => k))
  (at level 61, m at next level, right associativity).
Notation "m ;; k" := (bind m (fun _ => k))
  (at level 61, right associativity).

Definition lift {A} (r : outcome A) : M A :=
  match r with inr a => ret a | inl e => raise e end.

(** [try: body  except <handled>: handler] *)
Definition try_except {A} (body : M A) (handler : exn -> option (M A)) : M A :=
  fun s =>
    match body s with
    | (inr a, s') => (inr a, s')
    | (inl e, s') =>
        match handler e with
        | Some h => h s'
        | None => (inl e, s')
        end
    end.

Definition get_start_time : M (option float) :=
  fun s => (inr (_start_time (self s)), s).
Definition get_name : M (option string) := fun s => (inr (_name (self s)), s).
Definition get_logger : M (option nat) := fun s => (inr (_logger (self s)), s).
Definition get_timers : M dict := fun s => (inr (timers s), s).

Definition set_start_time (t : option float) : M unit :=
  fun s =>
    (inr tt,
     mkState (mkTimer t (_name (self s)) (_text (self s)) (_logger (self s)))
             (timers s) (reads s)).

Definition set_timers (d : dict) : M unit :=
  fun s => (inr tt, mkState (self s) d (reads s)).

(** Reading an attribute that neither the instance nor the class has. *)
Definition no_attribute {A} (attr : string) : M A := raise (AttributeError attr).

(** Reading a local variable: unbound until first assigned. *)
Definition load_local (var : string) (binding : option value) : M value :=
  match binding with
  | Some v => ret v
  | None => raise (UnboundLocalError var)
  end.

(** [self.timers[k]] *)
Definition timers_getitem (k : value) : M value :=
  d <- get_timers ;;
  match k with
  | VStr k' =>
      match dict_get k' d with
      | Some v => ret v
      | None => raise (KeyError k)
      end
  | _ => raise (KeyError k)
  end.

(** ** The methods of [Timer] *)

Section Runtime.

(** [perf_counter k] is what the [k]-th call of [time.perf_counter()]
    returns. *)
Variable perf_counter : nat -> float.
(** [str(f)] for a float, and the default [str] of an instance. *)
Variable float_repr : float -> string.
Variable object_repr : string.
(** [template.format(v)] *)
Variable str_format : string -> value -> outcome string.

(** [time.perf_counter()] *)
Definition time_perf_counter : M float :=
  fun s =>
    (inr (perf_counter (reads s)), mkState (self s) (timers s) (S (reads s))).

(** [f"{v}"] *)
Definition value_str (v : value) : string :=
  match v with
  | VNone => "None"
  | VInt z => NilZero.string_of_int (Z.to_int z)
  | VFloat f => float_repr f
  | VStr s => s
  | VBuiltin q => "<built-in function " ++ q ++ ">"
  | VSelf => object_repr
  end.

Definition newline : string := String "010" EmptyString.

(** [Timer(name, text, logger)]: the new instance and [Timer.timers]
    afterwards. *)
Definition __init__ (name : option string) (text : string)
           (logger : option nat) (registry : dict) : Timer * dict :=
  let obj := mkTimer None name text logger in
  match name with
  | Some n =>
      if name_truthy name then (obj, setdefault n (VInt 0) registry)
      else (obj, registry)
  | None => (obj, registry)
  end.

Definition start : M value :=
  t0 <- get_start_time ;;
  match t0 with
  | Some _ => raise AlreadyRunning
  | None =>
      now <- time_perf_counter ;;
      set_start_time (Some now) ;;
      ret VNone
  end.

(** Line 66 subtracts from the function object [time.perf_counter]
    itself: the name is not followed by a call. *)
Definition stop : M value :=
  t0 <- get_start_time ;;
  match t0 with
  | None => raise NotRunning
  | Some t0 =>
      _elapsed_time <- lift (py_sub (VBuiltin "perf_counter") (VFloat t0)) ;;
      lg <- get_logger ;;
      match lg with
      | Some _ =>
          logger <- no_attribute (A := value) "logger" ;;
          text <- no_attribute (A := value) "text" ;;
          ret tt
      | None => ret tt
      end ;;
      nm <- get_name ;;
      match nm with
      | Some n =>
          if name_truthy nm then
            old <- timers_getitem (VStr n) ;;
            new <- lift (py_add old _elapsed_time) ;;
            d <- get_timers ;;
            set_timers (dict_set n new d)
          else ret tt
      | None => ret tt
      end ;;
      ret _elapsed_time
  end.

(** The local [_report] is the target of [+=] before anything was
    assigned to it; the attributes read are [name] and [text]. *)
Definition report_saved_timer (name : string) : M value :=
  try_except
    (_report <- load_local "_report" None ;;
     self_name <- no_attribute (A := value) "name" ;;
     text <- no_attribute (A := value) "text" ;;
     saved <- timers_getitem self_name ;;
     rendered <-
       match text with
       | VStr t => lift (str_format t saved)
       | _ => raise (AttributeError "format")
       end ;;
     _report <-
       lift (py_add _report
               (VStr (value_str self_name ++ ": " ++ rendered))) ;;
     ret _report)
    (fun e =>
       match e with
       | KeyError _ => Some (raise (UnknownTimer name))
       | _ => None
       end).

(** One turn of the loop [for key, value in self.timers.items()]. *)
Definition report_line (_report : string) (item : string * value) : string :=
  _report ++ (fst item ++ ": " ++ value_str (snd item) ++ newline).

Definition report (name : option string) : M value :=
  match name with
  | Some n => report_saved_timer n
  | None =>
      d <- get_timers ;;
      if dict_truthy d then
        ret (VStr (fold_left report_line d ""))
      else
        stopped <- stop ;;
        lift (py_add (VStr "") stopped)
  end.

(** ** Context manager and decorator *)

Definition __enter__ : M value := start ;; ret VSelf.

Definition __exit__ (exc_info : option exn) : M value := stop ;; ret VNone.

(** [bool(v)] *)
Definition truthy (v : value) : bool :=
  match v with
  | VNone => false
  | VInt z => negb (z =? 0)
  | VFloat f => negb (PrimFloat.eqb f PrimFloat.zero)
  | VStr s => negb (String.eqb s "")
  | VBuiltin _ => true
  | VSelf => true
  end.

(** [with self: body], inside a function that returns what [body]
    returns.  An exception of [__enter__] leaves before the body; an
    exception of [__exit__] replaces whatever the body did; a body that
    raised is re-raised unless [__exit__] returned a true value, in which
    case the function falls through and returns [None]. *)
Definition with_self (body : M value) : M value :=
  fun s =>
    match __enter__ s with
    | (inl e, s1) => (inl e, s1)
    | (inr _, s1) =>
        match body s1 with
        | (inr v, s2) =>
            match __exit__ None s2 with
            | (inr _, s3) => (inr v, s3)
            | (inl e', s3) => (inl e', s3)
            end
        | (inl e, s2) =>
            match __exit__ (Some e) s2 with
            | (inr r, s3) => if truthy r then (inr VNone, s3) else (inl e, s3)
            | (inl e', s3) => (inl e', s3)
            end
        end
    end.

(** [Timer.__call__(self, funcion)]: the decorated function. *)
Definition __call__ {Args : Type} (funcion : Args -> M value)
  : Args -> M value :=
  fun args => with_self (funcion args).

(** ** Several instances over one registry *)

(** All the instances of a run share [Timer.timers] and the clock. *)
Record Process : Type := mkProcess {
  objects : list Timer;
  registry : dict;
  clock_reads : nat
}.

(** The class was just created: [timers = dict()], no instance yet. *)
Definition initial : Process := mkProcess [] [] 0.

Inductive call : Type :=
| Start
| Stop
| Report (name : option string)
| ReportSaved (name : string).

(** A statement of a client script: [New] constructs the next instance,
    [Call i c] calls a method on the [i]-th instance constructed. *)
Inductive op : Type :=
| New (name : option string) (text : string) (logger : option nat)
| Call (obj : nat) (c : call).

Definition method (c : call) : M value :=
  match c with
  | Start => start
  | Stop => stop
  | Report name => report name
  | ReportSaved name => report_saved_timer name
  end.

Fixpoint store (i : nat) (t : Timer) (l : list Timer) : list Timer :=
  match l, i with
  | [], _ => []
  | _ :: l', O => t :: l'
  | x :: l', S i' => x :: store i' t l'
  end.

(** One statement; the script goes on after an exception (the client
    catches it). *)
Definition step (o : op) (p : Process) : outcome value * Process :=
  match o with
  | New name text logger =>
      let (t, d) := __init__ name text logger (registry p) in
      (inr VSelf, mkProcess (objects p ++ [t]) d (clock_reads p))
  | Call i c =>
      match nth_error (objects p) i with
      | None => (inl (NameError "timer"), p)
      | Some t =>
          let (r, s) := method c (mkState t (registry p) (clock_reads p)) in
          (r, mkProcess (store i (self s) (objects p)) (timers s) (reads s))
      end
  end.

Fixpoint run (script : list op) (p : Process)
  : list (outcome value) * Process :=
  match script with
  | [] => ([], p)
  | o :: script' =>
      let (r, p1) := step o p in
      let (rs, p2) := run script' p1 in
      (r :: rs, p2)
  end.

(** [n] times [start(); stop()] on the receiver, each call guarded by
    the client; the outcomes of the [2 * n] calls in order. *)
Fixpoint cycles (n : nat) (s : State) : list (outcome value) * State :=
  match n with
  | O => ([], s)
  | S n' =>
      let (r1, s1) := start s in
      let (r2, s2) := stop s1 in
      let (rs, s3) := cycles n' s2 in
      (r1 :: r2 :: rs, s3)
  end.

End Runtime.


(** ** What the report of all timers should read *)

(** One line per entry, ["<key>: <value>\n"], in the order of the
    entries: the wording of the contract, to compare with the loop. *)
Definition entry_line (float_repr : float -> string) (object_repr : string)
           (item : string * value) : string :=
  fst item ++ ": " ++ value_str float_repr object_repr (snd item) ++ newline.

Definition report_lines (float_repr : float -> string) (object_repr : string)
           (d : dict) : string :=
  fold_right (fun item rest => entry_line float_repr object_repr item ++ rest)
             "" d.

(** Every value of a dictionary is a number not below zero. *)
Definition all_nonneg (d : dict) : bool :=
  forallb (fun item => nonneg (snd item)) d.

(** An outcome that is a returned number, as an elapsed time would be. *)
Definition returns_number (r : outcome value) : bool :=
  match r with
  | inr (VInt _) | inr (VFloat _) => true
  | _ => false
  end.

(** ** Reading a run *)

(** The state right after a [start()] that went through. *)
Definition started (clock : nat -> float) (s : State) : State :=
  mkState (mkTimer (Some (clock (reads s))) (_name (self s))
                   (_text (self s)) (_logger (self s)))
          (timers s) (S (reads s)).

Definition succeeded {A : Type} (r : outcome A) : bool :=
  match r with inr _ => true | inl _ => false end.

(** The statement is a [start()] call; a [start()] call on instance [i]. *)
Definition is_start (o : op) : bool :=
  match o with Call _ Start => true | _ => false end.

Definition is_start_of (i : nat) (o : op) : bool :=
  match o with Call j Start => Nat.eqb i j | _ => false end.

(** How many of the selected statements of a script returned normally,
    given the outcomes of its statements in order. *)
Definition successful (select : op -> bool) (script : list op)
           (outcomes : list (outcome value)) : nat :=
  length (filter (fun item => select (fst item) && succeeded (snd item))
                 (combine script outcomes)).

(** The integer [0], as [setdefault(name, 0)] stores it. *)
Definition is_zero (v : value) : bool :=
  match v with VInt 0 => true | _ => false end.

(** The names given to constructors that count as names ([if name:]),
    each once, in the order in which they were first given. *)
Definition register (names : list string) (name : option string)
  : list string :=
  match name with
  | Some n =>
      if name_truthy name then
        if existsb (String.eqb n) names then names else (names ++ [n])%list
      else names
  | None => names
  end.

Definition registered_names (objs : list Timer) : list string :=
  fold_left register (map _name objs) [].

Definition zero_entries (names : list string) : dict :=
  map (fun n => (n, VInt 0)) names.

(** [t'] is a later state of the instance [t]: the same name, text and
    logger, and the same start instant if [t] had one. *)
Definition later_state (t t' : Timer) : Prop :=
  _name t' = _name t /\ _text t' = _text t /\ _logger t' = _logger t /\
  (forall t0 : float, _start_time t = Some t0 -> _start_time t' = Some t0).

(** The exceptions each call can end in. *)
Definition raises_only (c : call) (e : exn) : Prop :=
  match c with
  | Start => e = AlreadyRunning
  | Stop | Report None => e = NotRunning \/ e = TypeError
  | Report (Some _) | ReportSaved _ => e = UnboundLocalError "_report"
  end.

(** ** A concrete runtime, for evaluating the methods *)

(** A clock that reads 1, 1.5, 2, 2.25, 3, 3.125 and then stays there. *)
Definition sample_clock (k : nat) : float :=
  nth k [1%float; 1.5%float; 2%float; 2.25%float; 3%float; 3.125%float]
      3.125%float.

Definition sample_float_repr (f : float) : string := "<float>".
Definition sample_object_repr : string := "<Timer object>".
Definition sample_format (template : string) (v : value) : outcome string :=
  inr template.

Definition idle_timer : Timer := mkTimer None None default_text None.
Definition running_timer : Timer :=
  mkTimer (Some 1%float) None default_text None.
Definition timer_x : Timer := mkTimer None (Some "x") default_text None.

(** ** Basic facts *)

Lemma string_app_assoc (a b c : string) : (a ++ b) ++ c = a ++ (b ++ c).
Proof.
  induction a as [| ch a IH]; simpl.
  - reflexivity.
  - now rewrite IH.
Qed.

Lemma dict_set_absent (k : string) (v : value) (d : dict) :
  dict_get k d = None -> dict_set k v d = (d ++ [(k, v)])%list.
Proof.
  induction d as [| [k' v'] d IH]; simpl; intros H.
  - reflexivity.
  - destruct (String.eqb k k'); [discriminate |].
    now rewrite IH.
Qed.

Lemma dict_get_last (k : string) (v : value) (d : dict) :
  dict_get k d = None -> dict_get k (d ++ [(k, v)])%list = Some v.
Proof.
  induction d as [| [k' v'] d IH]; simpl; intros H.
  - now rewrite String.eqb_refl.
  - destruct (String.eqb k k'); [discriminate | auto].
Qed.

(** [stop] raises in both states and changes nothing: idle by the guard
    of line 62, running by the subtraction of line 66. *)
Lemma stop_raises (s : State) :
  stop s =
  (inl (match _start_time (self s) with
        | Some _ => TypeError
        | None => NotRunning
        end), s).
Proof.
  destruct s as [[st nm tx lg] d k].
  destruct st as [t0 |]; reflexivity.
Qed.

Lemma start_running (clock : nat -> float) (s : State) :
  _start_time (self s) <> None -> start clock s = (inl AlreadyRunning, s).
Proof.
  destruct s as [[st nm tx lg] d k]; simpl.
  destruct st as [t0 |]; [reflexivity | congruence].
Qed.

Lemma start_idle (clock : nat -> float) (s : State) :
  _start_time (self s) = None ->
  start clock s =
  (inr VNone,
   mkState (mkTimer (Some (clock (reads s))) (_name (self s))
                    (_text (self s)) (_logger (self s)))
           (timers s) (S (reads s))).
Proof.
  destruct s as [[st nm tx lg] d k]; simpl.
  intros ->. reflexivity.
Qed.

Lemma start_leaves_running (clock : nat -> float) (s : State) :
  _start_time (self (snd (start clock s))) <> None.
Proof.
  destruct (_start_time (self s)) as [t0 |] eqn:E.
  - rewrite start_running by congruence. simpl. congruence.
  - rewrite start_idle by assumption. simpl. discriminate.
Qed.

Lemma start_timers (clock : nat -> float) (s : State) :
  timers (snd (start clock s)) = timers s.
Proof.
  destruct (_start_time (self s)) as [t0 |] eqn:E.
  - now rewrite start_running by congruence.
  - now rewrite start_idle by assumption.
Qed.

Lemma report_saved_timer_raises
      (float_repr : float -> string) (object_repr : string)
      (str_format : string -> value -> outcome string)
      (name : string) (s : State) :
  report_saved_timer float_repr object_repr str_format name s =
  (inl (UnboundLocalError "_report"), s).
Proof. reflexivity. Qed.

Lemma fold_report_line (float_repr : float -> string) (object_repr : string)
      (d : dict) (acc : string) :
  fold_left (report_line float_repr object_repr) d acc =
  acc ++ report_lines float_repr object_repr d.
Proof.
  revert acc.
  induction d as [| item d IH]; intros acc; simpl.
  - induction acc as [| ch acc IHa]; simpl; [reflexivity | now rewrite <- IHa].
  - rewrite IH. unfold report_line, entry_line.
    now rewrite string_app_assoc.
Qed.

Lemma report_all (float_repr : float -> string) (object_repr : string)
      (str_format : string -> value -> outcome string) (s : State) :
  timers s <> [] ->
  report float_repr object_repr str_format None s =
  (inr (VStr (report_lines float_repr object_repr (timers s))), s).
Proof.
  destruct s as [t d k]; simpl.
  destruct d as [| item d]; [congruence |].
  intros _. unfold report, bind, get_timers, ret. simpl timers. cbv iota beta.
  simpl dict_truthy. cbv iota.
  now rewrite fold_report_line.
Qed.

Lemma report_fallback (float_repr : float -> string) (object_repr : string)
      (str_format : string -> value -> outcome string) (s : State) :
  timers s = [] ->
  report float_repr object_repr str_format None s = stop s.
Proof.
  destruct s as [t d k]; simpl. intros ->.
  unfold report, bind, get_timers. simpl.
  now rewrite stop_raises.
Qed.

(** ** The state machine *)

(** The guards of [start()] and [stop()].  [start()] on a running timer
    raises the [TimerError] of line 50 (AlreadyRunning) and [stop()] on an
    idle timer raises the [TimerError] of line 63 (NotRunning), each leaving
    the state as it was.  The second of two [start()] calls in a row always
    raises AlreadyRunning; the second of two [stop()] calls in a row raises
    NotRunning on a timer that was idle, but the [TypeError] of line 66 on
    one that was running. *)
Theorem start_stop_misuse (clock : nat -> float) (s : State) :
  (_start_time (self s) <> None -> start clock s = (inl AlreadyRunning, s)) /\
  (_start_time (self s) = None -> stop s = (inl NotRunning, s)) /\
  (let s1 := snd (start clock s) in
   start clock s1 = (inl AlreadyRunning, s1)) /\
  (let s1 := snd (stop s) in
   stop s1 =
   (inl (match _start_time (self s) with
         | Some _ => TypeError
         | None => NotRunning
         end), s1)).
Proof.
  repeat split.
  - apply start_running.
  - intros H. rewrite stop_raises, H. reflexivity.
  - cbv zeta. apply start_running, start_leaves_running.
  - cbv zeta. rewrite !stop_raises. reflexivity.
Qed.

Lemma start_stop_misuse_witness :
  start sample_clock (mkState running_timer [] 1) =
    (inl AlreadyRunning, mkState running_timer [] 1) /\
  stop (mkState idle_timer [] 0) = (inl NotRunning, mkState idle_timer [] 0).
Proof.
  split.
  - apply (proj1 (start_stop_misuse sample_clock (mkState running_timer [] 1))).
    simpl. discriminate.
  - apply (proj1 (proj2 (start_stop_misuse sample_clock
                           (mkState idle_timer [] 0)))).
    reflexivity.
Defined.

(** C1 (the code differs).  [start(); stop(); stop()] on an idle timer:
    [start()] goes through, and then both [stop()] calls raise the
    [TypeError] of line 66, the second one too, since the first left the
    timer running.  The second [stop()] does not raise NotRunning. *)
Theorem stop_twice_raises_TypeError
        (clock : nat -> float) (name : option string) (text : string)
        (logger : option nat) (d : dict) (k : nat) :
  let s0 := mkState (mkTimer None name text logger) d k in
  let s1 := started clock s0 in
  start clock s0 = (inr VNone, s1) /\
  stop s1 = (inl TypeError, s1) /\
  stop (snd (stop s1)) = (inl TypeError, s1) /\
  fst (stop (snd (stop s1))) <> inl NotRunning.
Proof.
  cbv zeta. repeat split. simpl. discriminate.
Qed.

(** C2 (the code differs).  On a running timer [stop()] never returns: line
    66 subtracts the start instant from the function [time.perf_counter]
    instead of from a reading of it, which raises [TypeError]; and no line
    of [stop] assigns [_start_time], so the timer is still running. *)
Theorem stop_running_raises_and_stays_running
        (t0 : float) (name : option string) (text : string)
        (logger : option nat) (d : dict) (k : nat) :
  stop (mkState (mkTimer (Some t0) name text logger) d k) =
  (inl TypeError, mkState (mkTimer (Some t0) name text logger) d k).
Proof. reflexivity. Qed.

(** ** Reporting *)

(** The branches of [report()] without a name: over a registry that is
    not empty it returns the lines ["<key>: <value>\n"] of the entries in
    their order and changes nothing; over an empty registry its outcome is
    that of [stop()], which on an idle timer is the NotRunning error. *)
Theorem report_dispatch
        (float_repr : float -> string) (object_repr : string)
        (str_format : string -> value -> outcome string) (s : State) :
  (timers s <> [] ->
   report float_repr object_repr str_format None s =
   (inr (VStr (report_lines float_repr object_repr (timers s))), s)) /\
  (timers s = [] ->
   report float_repr object_repr str_format None s = stop s) /\
  (timers s = [] -> _start_time (self s) = None ->
   report float_repr object_repr str_format None s = (inl NotRunning, s)).
Proof.
  repeat split.
  - apply report_all.
  - apply report_fallback.
  - intros Hd Hi. rewrite report_fallback by assumption.
    rewrite stop_raises, Hi. reflexivity.
Qed.

Lemma report_dispatch_witness :
  report sample_float_repr sample_object_repr sample_format None
         (mkState running_timer [("x", VInt 0); ("y", VInt 0)] 1) =
    (inr (VStr ("x: 0" ++ newline ++ "y: 0" ++ newline)),
     mkState running_timer [("x", VInt 0); ("y", VInt 0)] 1) /\
  report sample_float_repr sample_object_repr sample_format None
         (mkState idle_timer [] 0) = (inl NotRunning, mkState idle_timer [] 0).
Proof.
  split.
  - apply (proj1 (report_dispatch sample_float_repr sample_object_repr
                    sample_format
                    (mkState running_timer [("x", VInt 0); ("y", VInt 0)] 1))).
    simpl. discriminate.
  - apply (proj2 (proj2 (report_dispatch sample_float_repr sample_object_repr
                           sample_format (mkState idle_timer [] 0))));
      reflexivity.
Defined.

(** C4 (the code differs).  [report()] on a running timer over an empty
    registry neither stops the timer nor returns an elapsed time: the
    [stop()] of line 117 raises the [TypeError] of line 66, and the timer
    is still running.  Besides, line 117 adds what [stop()] returns to the
    string [_report], and a string plus a float is a [TypeError] as well. *)
Theorem report_fallback_running_raises
        (float_repr : float -> string) (object_repr : string)
        (str_format : string -> value -> outcome string)
        (t0 : float) (name : option string) (text : string)
        (logger : option nat) (k : nat) :
  report float_repr object_repr str_format None
         (mkState (mkTimer (Some t0) name text logger) [] k) =
    (inl TypeError, mkState (mkTimer (Some t0) name text logger) [] k) /\
  (forall elapsed : float,
      py_add (VStr "") (VFloat elapsed) = inl TypeError).
Proof. split; reflexivity. Qed.

(** C5 (the code differs).  [report_saved_timer(name)] never returns and
    never raises [TimerError]: its first statement applies [+=] to the
    local [_report] before anything was assigned to it, so every call
    raises [UnboundLocalError], which the [except KeyError] clause does not
    handle; [report(name)] passes that on.  This holds whether or not the
    registry has an entry for [name]. *)
Theorem report_saved_timer_always_unbound
        (float_repr : float -> string) (object_repr : string)
        (str_format : string -> value -> outcome string)
        (name : string) (s : State) :
  report_saved_timer float_repr object_repr str_format name s =
    (inl (UnboundLocalError "_report"), s) /\
  report float_repr object_repr str_format (Some name) s =
    (inl (UnboundLocalError "_report"), s).
Proof. split; reflexivity. Qed.

(** C10.  [report(name)] for any name, and [report()] over a registry
    that is not empty, leave the registry, the receiving timer and the clock
    as they were. *)
Theorem report_is_read_only
        (float_repr : float -> string) (object_repr : string)
        (str_format : string -> value -> outcome string) (s : State) :
  (forall name : string,
      snd (report float_repr object_repr str_format (Some name) s) = s) /\
  (timers s <> [] ->
   snd (report float_repr object_repr str_format None s) = s).
Proof.
  split.
  - intros name. reflexivity.
  - intros H. now rewrite report_all.
Qed.

Lemma report_is_read_only_witness :
  snd (report sample_float_repr sample_object_repr sample_format None
              (mkState running_timer [("x", VInt 0)] 1)) =
  mkState running_timer [("x", VInt 0)] 1.
Proof.
  apply (proj2 (report_is_read_only sample_float_repr sample_object_repr
                  sample_format (mkState running_timer [("x", VInt 0)] 1))).
  simpl. discriminate.
Defined.

(** ** Accumulation *)

Lemma cycles_succ (clock : nat -> float) (n : nat) (s : State) :
  cycles clock (S n) s =
  (fst (start clock s) :: fst (stop (snd (start clock s)))
     :: fst (cycles clock n (snd (start clock s))),
   snd (cycles clock n (snd (start clock s)))).
Proof.
  simpl. destruct (start clock s) as [r1 s1]. simpl.
  rewrite stop_raises. destruct (cycles clock n s1) as [rs s3]. reflexivity.
Qed.

(** C3 (the code differs).  However many [start(); stop()] cycles are
    run, no call returns a duration and the registry is what it was before:
    each [stop()] raises at line 66, before the accumulation of line 72.
    For the timer named ["x"] the first [stop()] raises [TypeError], the
    later [start()] calls find the timer still running, and the entry of
    ["x"] is still [0] after three cycles. *)
Theorem cycles_never_accumulate (clock : nat -> float) (n : nat) (s : State) :
  timers (snd (cycles clock n s)) = timers s /\
  existsb returns_number (fst (cycles clock n s)) = false /\
  cycles sample_clock 3 (mkState timer_x [("x", VInt 0)] 0) =
  ([inr VNone; inl TypeError; inl AlreadyRunning; inl TypeError;
    inl AlreadyRunning; inl TypeError],
   mkState (mkTimer (Some 1%float) (Some "x") default_text None)
           [("x", VInt 0)] 1).
Proof.
  split; [| split].
  - revert s. induction n as [| n IH]; intros s.
    + reflexivity.
    + rewrite cycles_succ. simpl snd. rewrite IH. apply start_timers.
  - revert s. induction n as [| n IH]; intros s.
    + reflexivity.
    + rewrite cycles_succ. simpl fst. rewrite stop_raises. simpl.
      rewrite IH.
      destruct (_start_time (self s)) as [t0 |] eqn:E.
      * rewrite start_running by congruence. simpl.
        now destruct (_start_time (self s)).
      * rewrite start_idle by assumption. reflexivity.
  - reflexivity.
Qed.

(** ** Scoped block and decorator *)

(** Whatever the body does, [with self:] ends in an exception of the
    timer itself: of [start()] on entry, or of [stop()] on exit. *)
Lemma with_self_always_raises (clock : nat -> float) (body : M value)
      (s : State) :
  exists (e : exn) (s' : State),
    with_self clock body s = (inl e, s') /\
    (e = AlreadyRunning \/ e = NotRunning \/ e = TypeError).
Proof.
  unfold with_self, __enter__, __exit__, bind.
  destruct (_start_time (self s)) as [t0 |] eqn:E.
  - rewrite start_running by congruence. eauto.
  - rewrite start_idle by assumption. unfold ret.
    match goal with
    | |- context [body ?s1] => destruct (body s1) as [[e | v] s2]
    end;
      rewrite stop_raises; destruct (_start_time (self s2)); eauto 6.
Qed.

(** C6 (the code differs).  A block that raises [e] inside [with timer:]
    on an idle timer: [__exit__] does call [stop()], but that call raises
    the [TypeError] of line 66, which is what reaches the caller in place of
    [e], and the timer is still running afterwards. *)
Theorem scoped_block_error_is_replaced
        (clock : nat -> float) (name : option string) (text : string)
        (logger : option nat) (d : dict) (k : nat) (e : exn) :
  with_self clock (raise e) (mkState (mkTimer None name text logger) d k) =
  (inl TypeError,
   mkState (mkTimer (Some (clock k)) name text logger) d (S k)).
Proof. reflexivity. Qed.

(** C7 (the code differs).  The decorated function on an idle timer:
    [funcion] runs once, then [stop()] raises in [__exit__] and the result is
    lost; the timer stays running, so the next call raises AlreadyRunning
    on entry, before [funcion] is called at all. *)
Theorem decorated_call_loses_result
        (clock : nat -> float) (Args : Type) (f : Args -> value) (a : Args)
        (name : option string) (text : string) (logger : option nat)
        (d : dict) (k : nat) :
  let s0 := mkState (mkTimer None name text logger) d k in
  let s1 := mkState (mkTimer (Some (clock k)) name text logger) d (S k) in
  __call__ clock (fun x => ret (f x)) a s0 = (inl TypeError, s1) /\
  __call__ clock (fun x => ret (f x)) a s1 = (inl AlreadyRunning, s1).
Proof. split; reflexivity. Qed.

(** ** Registration *)

(** C8, as stated, fails: constructing [Timer("x")] over the empty
    registry creates the entry of ["x"]. *)
Lemma registration_not_deferred :
  ~ (forall (name text : string) (logger : option nat) (d : dict),
        dict_get name d = None ->
        dict_get name (snd (__init__ (Some name) text logger d)) = None).
Proof.
  intros H.
  specialize (H "x" default_text None [] eq_refl).
  discriminate H.
Qed.

(** C8, amended.  Registration is eager: constructing a timer with a name
    that is not empty and not yet in the registry appends the entry of that
    name, with value [0], to the registry. *)
Theorem registration_is_eager
        (name text : string) (logger : option nat) (d : dict) :
  name <> "" ->
  dict_get name d = None ->
  snd (__init__ (Some name) text logger d) = (d ++ [(name, VInt 0)])%list /\
  dict_get name (snd (__init__ (Some name) text logger d)) = Some (VInt 0).
Proof.
  intros Hne Hd.
  assert (E : snd (__init__ (Some name) text logger d)
              = (d ++ [(name, VInt 0)])%list).
  { unfold __init__, name_truthy.
    apply String.eqb_neq in Hne. rewrite Hne. simpl.
    unfold setdefault. rewrite Hd. now apply dict_set_absent. }
  split; [exact E |].
  rewrite E. now apply dict_get_last.
Qed.

Lemma registration_is_eager_witness :
  snd (__init__ (Some "x") default_text None [("y", VInt 0)]) =
    [("y", VInt 0); ("x", VInt 0)] /\
  dict_get "x" (snd (__init__ (Some "x") default_text None [("y", VInt 0)])) =
    Some (VInt 0).
Proof.
  apply (registration_is_eager "x" default_text None [("y", VInt 0)]).
  - discriminate.
  - reflexivity.
Defined.

(** ** The registry never holds a negative value *)

Section Invariant.

Variable clock : nat -> float.
Variable float_repr : float -> string.
Variable object_repr : string.
Variable str_format : string -> value -> outcome string.

Lemma method_timers (c : call) (s : State) :
  timers (snd (method clock float_repr object_repr str_format c s)) =
  timers s.
Proof.
  destruct c as [| | [name |] | name]; unfold method.
  - apply start_timers.
  - now rewrite stop_raises.
  - reflexivity.
  - destruct (timers s) as [| item d] eqn:E.
    + rewrite report_fallback by assumption. now rewrite stop_raises.
    + rewrite report_all by congruence. simpl. exact E.
  - reflexivity.
Qed.

Lemma init_nonneg (name : option string) (text : string)
      (logger : option nat) (d : dict) :
  all_nonneg d = true ->
  all_nonneg (snd (__init__ name text logger d)) = true.
Proof.
  intros H. unfold __init__.
  destruct name as [n |]; [| exact H].
  destruct (name_truthy (Some n)); [| exact H].
  simpl. unfold setdefault.
  destruct (dict_get n d) as [v |] eqn:E; [exact H |].
  rewrite dict_set_absent by assumption.
  unfold all_nonneg in *. rewrite forallb_app, H. reflexivity.
Qed.

Lemma step_nonneg (o : op) (p : Process) :
  all_nonneg (registry p) = true ->
  all_nonneg
    (registry (snd (step clock float_repr object_repr str_format o p)))
  = true.
Proof.
  intros H. destruct o as [name text logger | i c]; simpl.
  - pose proof (init_nonneg name text logger (registry p) H) as Hi.
    destruct (__init__ name text logger (registry p)) as [t d]. exact Hi.
  - destruct (nth_error (objects p) i) as [t |]; [| exact H].
    pose proof (method_timers c (mkState t (registry p) (clock_reads p)))
      as Hm.
    destruct (method clock float_repr object_repr str_format c
                     (mkState t (registry p) (clock_reads p))) as [r s].
    simpl in *. now rewrite Hm.
Qed.

End Invariant.

(** C9.  Over a registry whose values are all numbers not below zero,
    every script of constructions and of [start], [stop] and [report] calls,
    on any instances, ends with a registry of the same kind.  The empty
    registry of a fresh class is one such; the entries constructions add
    are [0], and no call changes a value. *)
Theorem registry_never_negative
        (clock : nat -> float) (float_repr : float -> string)
        (object_repr : string)
        (str_format : string -> value -> outcome string)
        (script : list op) (p : Process) :
  all_nonneg (registry p) = true ->
  all_nonneg
    (registry (snd (run clock float_repr object_repr str_format script p)))
  = true.
Proof.
  revert p. induction script as [| o script IH]; intros p H.
  - exact H.
  - simpl.
    pose proof (step_nonneg clock float_repr object_repr str_format o p H)
      as Hs.
    destruct (step clock float_repr object_repr str_format o p) as [r p1].
    specialize (IH p1 Hs).
    destruct (run clock float_repr object_repr str_format script p1)
      as [rs p2].
    exact IH.
Qed.

Lemma registry_never_negative_witness :
  all_nonneg
    (registry
       (snd (run sample_clock sample_float_repr sample_object_repr
                 sample_format
                 [New (Some "x") default_text None; Call 0 Start; Call 0 Stop;
                  New (Some "y") default_text (Some 0%nat); Call 1 Start;
                  Call 1 (Report None); Call 0 (Report (Some "x"))]
                 initial)))
  = true.
Proof.
  apply (registry_never_negative sample_clock sample_float_repr
           sample_object_repr sample_format).
  reflexivity.
Defined.

(** ** Further facts about the methods and about runs *)

Lemma nth_error_store_same (i : nat) (t t' : Timer) (l : list Timer) :
  nth_error l i = Some t -> nth_error (store i t' l) i = Some t'.
Proof.
  revert i. induction l as [| x l IH]; intros [| i]; simpl; intros H;
    try discriminate; auto.
Qed.

Lemma nth_error_store_other (i j : nat) (t' : Timer) (l : list Timer) :
  i <> j -> nth_error (store i t' l) j = nth_error l j.
Proof.
  revert i j. induction l as [| x l IH]; intros [| i] [| j] H; simpl;
    try reflexivity; try congruence.
  apply IH. congruence.
Qed.

Lemma length_store (i : nat) (t' : Timer) (l : list Timer) :
  length (store i t' l) = length l.
Proof.
  revert i. induction l as [| x l IH]; intros [| i]; simpl; auto.
Qed.

Lemma later_state_refl (t : Timer) : later_state t t.
Proof. unfold later_state. auto. Qed.

Lemma later_state_trans (t1 t2 t3 : Timer) :
  later_state t1 t2 -> later_state t2 t3 -> later_state t1 t3.
Proof.
  unfold later_state. intros (N1 & T1 & L1 & S1) (N2 & T2 & L2 & S2).
  repeat split; try congruence. auto.
Qed.

Lemma dict_get_zero_entries (n : string) (names : list string) :
  dict_get n (zero_entries names) =
  if existsb (String.eqb n) names then Some (VInt 0) else None.
Proof.
  induction names as [| m names IH]; simpl.
  - reflexivity.
  - destruct (String.eqb n m); simpl; auto.
Qed.

Lemma init_registry (name : option string) (text : string)
      (logger : option nat) (d : dict) :
  snd (__init__ name text logger d) =
  match name with
  | Some n =>
      if name_truthy name then
        match dict_get n d with
        | Some _ => d
        | None => (d ++ [(n, VInt 0)])%list
        end
      else d
  | None => d
  end.
Proof.
  unfold __init__. destruct name as [n |]; [| reflexivity].
  destruct (name_truthy (Some n)); [| reflexivity].
  simpl. unfold setdefault.
  destruct (dict_get n d) eqn:E; [reflexivity |].
  now apply dict_set_absent.
Qed.

Lemma init_instance (name : option string) (text : string)
      (logger : option nat) (d : dict) :
  fst (__init__ name text logger d) = mkTimer None name text logger.
Proof.
  unfold __init__. destruct name as [n |]; [| reflexivity].
  now destruct (name_truthy (Some n)).
Qed.

Section Runs.

Variable clock : nat -> float.
Variable float_repr : float -> string.
Variable object_repr : string.
Variable str_format : string -> value -> outcome string.

Local Notation "'method_'" :=
  (method clock float_repr object_repr str_format).
Local Notation "'step_'" := (step clock float_repr object_repr str_format).
Local Notation "'run_'" := (run clock float_repr object_repr str_format).


(** A call either is the [start()] of an idle timer, which goes through,
    or changes nothing at all. *)
Lemma method_cases (c : call) (s : State) :
  (c = Start /\ _start_time (self s) = None /\
   method_ c s = (inr VNone, started clock s)) \/
  (snd (method_ c s) = s /\
   (c = Start -> succeeded (fst (method_ c s)) = false)).
Proof.
  destruct c as [| | [name |] | name]; unfold method.
  - destruct (_start_time (self s)) as [t0 |] eqn:E.
    + right. rewrite start_running by congruence. auto.
    + left. rewrite start_idle by assumption. auto.
  - right. rewrite stop_raises. split; [reflexivity | discriminate].
  - right. split; [reflexivity | discriminate].
  - right. split; [| discriminate].
    destruct (timers s) as [| item d] eqn:E.
    + rewrite report_fallback by assumption. now rewrite stop_raises.
    + now rewrite report_all by congruence.
  - right. split; [reflexivity | discriminate].
Qed.

(** X8.  The exceptions a call can end in: [start()] only in
    AlreadyRunning; [stop()] and [report()] without a name only in
    NotRunning or the [TypeError] of line 66; [report(name)] and
    [report_saved_timer(name)] only in the [UnboundLocalError] of line 89.
    No [KeyError] or [AttributeError] ever leaves a method, and none raises
    the "No timer called ... found." error. *)
Theorem call_raises_only (c : call) (s : State) (e : exn) :
  fst (method_ c s) = inl e -> raises_only c e.
Proof.
  destruct c as [| | [name |] | name]; unfold method, raises_only.
  - destruct (_start_time (self s)) as [t0 |] eqn:E.
    + rewrite start_running by congruence. simpl. congruence.
    + rewrite start_idle by assumption. simpl. discriminate.
  - rewrite stop_raises. simpl.
    destruct (_start_time (self s)); intros [= <-]; auto.
  - simpl. congruence.
  - destruct (timers s) as [| item d] eqn:E.
    + rewrite report_fallback by assumption. rewrite stop_raises. simpl.
      destruct (_start_time (self s)); intros [= <-]; auto.
    + rewrite report_all by congruence. simpl. discriminate.
  - simpl. congruence.
Qed.

Lemma method_later (c : call) (s : State) :
  later_state (self s) (self (snd (method_ c s))).
Proof.
  destruct (method_cases c s) as [(_ & Hi & E) | (E & _)]; rewrite E.
  - unfold later_state, started. simpl. repeat split; try reflexivity.
    intros t0. rewrite Hi. discriminate.
  - apply later_state_refl.
Qed.

Lemma run_cons (o : op) (script : list op) (p : Process) :
  run_ (o :: script) p =
  (fst (step_ o p) :: fst (run_ script (snd (step_ o p))),
   snd (run_ script (snd (step_ o p)))).
Proof.
  simpl.
  destruct (step_ o p) as [r p1].
  simpl.
  now destruct (run_ script p1).
Qed.

Lemma step_new (name : option string) (text : string) (logger : option nat)
      (p : Process) :
  step_ (New name text logger) p =
  (inr VSelf,
   mkProcess (objects p ++ [mkTimer None name text logger])
             (snd (__init__ name text logger (registry p)))
             (clock_reads p)).
Proof.
  unfold step.
  rewrite <- (init_instance name text logger (registry p)).
  now destruct (__init__ name text logger (registry p)).
Qed.

Lemma step_call (i : nat) (c : call) (p : Process) (t : Timer) :
  nth_error (objects p) i = Some t ->
  step_ (Call i c) p =
  (fst (method_ c (mkState t (registry p) (clock_reads p))),
   let s := snd (method_ c (mkState t (registry p) (clock_reads p))) in
   mkProcess (store i (self s) (objects p)) (timers s) (reads s)).
Proof.
  intros H. unfold step. rewrite H.
  now destruct (method_ c
                       (mkState t (registry p) (clock_reads p))).
Qed.

Lemma step_call_missing (i : nat) (c : call) (p : Process) :
  nth_error (objects p) i = None ->
  step_ (Call i c) p = (inl (NameError "timer"), p).
Proof. intros H. unfold step. now rewrite H. Qed.

Lemma step_instance (o : op) (p : Process) (i : nat) (t : Timer) :
  nth_error (objects p) i = Some t ->
  exists t' : Timer,
    nth_error (objects (snd (step_ o p))) i = Some t' /\ later_state t t'.
Proof.
  intros H. destruct o as [name text logger | j c].
  - rewrite step_new. simpl. exists t. split; [| apply later_state_refl].
    rewrite nth_error_app1; [assumption |].
    apply nth_error_Some. congruence.
  - destruct (nth_error (objects p) j) as [tj |] eqn:Ej.
    + rewrite (step_call j c p tj Ej). simpl.
      destruct (Nat.eq_dec j i) as [-> | Hne].
      * rewrite H in Ej. injection Ej as <-.
        eexists. split.
        -- apply nth_error_store_same with (t := t). assumption.
        -- apply (method_later c (mkState t (registry p) (clock_reads p))).
      * rewrite nth_error_store_other by assumption.
        exists t. split; [assumption | apply later_state_refl].
    + rewrite step_call_missing by assumption. simpl.
      exists t. split; [assumption | apply later_state_refl].
Qed.

Lemma run_instance (script : list op) (p : Process) (i : nat) (t : Timer) :
  nth_error (objects p) i = Some t ->
  exists t' : Timer,
    nth_error (objects (snd (run_ script p))) i = Some t' /\ later_state t t'.
Proof.
  revert p t. induction script as [| o script IH]; intros p t H.
  - exists t. split; [assumption | apply later_state_refl].
  - rewrite run_cons. simpl snd.
    destruct (step_instance o p i t H) as (t1 & H1 & L1).
    destruct (IH _ _ H1) as (t2 & H2 & L2).
    exists t2. split; [assumption |].
    now apply later_state_trans with t1.
Qed.

Lemma step_reads (o : op) (p : Process) :
  clock_reads (snd (step_ o p)) =
  (clock_reads p +
   (if is_start o && succeeded (fst (step_ o p)) then 1 else 0))%nat.
Proof.
  destruct o as [name text logger | j c].
  - rewrite step_new. simpl. lia.
  - destruct (nth_error (objects p) j) as [tj |] eqn:Ej.
    + rewrite (step_call j c p tj Ej). cbv zeta. cbn [fst snd].
      destruct (method_cases c (mkState tj (registry p) (clock_reads p)))
        as [(-> & _ & E) | (E & Hf)].
      * rewrite E. simpl. lia.
      * rewrite E.
        destruct c; [rewrite Hf by reflexivity | | |]; simpl; lia.
    + rewrite step_call_missing by assumption. simpl.
      rewrite andb_false_r. lia.
Qed.

Lemma step_registry (o : op) (p : Process) :
  exists ext : dict,
    registry (snd (step_ o p)) = (registry p ++ ext)%list /\
    forallb (fun item => is_zero (snd item)) ext = true.
Proof.
  destruct o as [name text logger | j c].
  - rewrite step_new. simpl. rewrite init_registry.
    destruct name as [n |]; [| exists []; now rewrite app_nil_r].
    destruct (name_truthy (Some n)); [| exists []; now rewrite app_nil_r].
    destruct (dict_get n (registry p)); [exists []; now rewrite app_nil_r |].
    exists [(n, VInt 0)]. auto.
  - exists []. rewrite app_nil_r. split; [| reflexivity].
    destruct (nth_error (objects p) j) as [tj |] eqn:Ej.
    + rewrite (step_call j c p tj Ej). cbv zeta.
      destruct (method_cases c (mkState tj (registry p) (clock_reads p)))
        as [(_ & _ & E) | (E & _)]; now rewrite E.
    + now rewrite step_call_missing by assumption.
Qed.

Lemma is_start_of_inv (i : nat) (o : op) :
  is_start_of i o = true -> o = Call i Start.
Proof.
  destruct o as [| j []]; simpl; try discriminate.
  intros H. apply Nat.eqb_eq in H. now subst.
Qed.

Lemma step_running_start_fails (o : op) (p : Process) (i : nat) (t : Timer) :
  nth_error (objects p) i = Some t ->
  _start_time t <> None ->
  is_start_of i o = true ->
  succeeded (fst (step_ o p)) = false.
Proof.
  intros H Hr Ho. apply is_start_of_inv in Ho. subst o.
  rewrite (step_call i Start p t H). cbn [fst snd]. unfold method.
  now rewrite start_running.
Qed.

Lemma step_start_success (o : op) (p : Process) (i : nat) :
  is_start_of i o = true ->
  succeeded (fst (step_ o p)) = true ->
  exists t : Timer,
    nth_error (objects (snd (step_ o p))) i = Some t /\
    _start_time t <> None.
Proof.
  intros Ho Hs. apply is_start_of_inv in Ho. subst o.
  destruct (nth_error (objects p) i) as [t |] eqn:E.
  - rewrite (step_call i Start p t E) in *. cbv zeta in *. cbn [fst snd] in *.
    destruct (method_cases Start (mkState t (registry p) (clock_reads p)))
      as [(_ & _ & Em) | (_ & Hf)].
    + rewrite Em. simpl. eexists. split.
      * apply nth_error_store_same with (t := t). assumption.
      * simpl. discriminate.
    + rewrite Hf in Hs by reflexivity. discriminate.
  - rewrite step_call_missing in Hs by assumption. discriminate.
Qed.

Lemma successful_cons (select : op -> bool) (o : op) (script : list op)
      (r : outcome value) (rs : list (outcome value)) :
  successful select (o :: script) (r :: rs) =
  ((if select o && succeeded r then 1 else 0)
   + successful select script rs)%nat.
Proof.
  unfold successful. simpl.
  now destruct (select o && succeeded r).
Qed.

Lemma running_never_starts (script : list op) (p : Process) (i : nat)
      (t : Timer) :
  nth_error (objects p) i = Some t ->
  _start_time t <> None ->
  successful (is_start_of i) script (fst (run_ script p)) = 0%nat.
Proof.
  revert p t. induction script as [| o script IH]; intros p t H Hr.
  - reflexivity.
  - rewrite run_cons. simpl fst. rewrite successful_cons.
    destruct (step_instance o p i t H) as (t1 & H1 & (_ & _ & _ & L1)).
    assert (Hr1 : _start_time t1 <> None).
    { destruct (_start_time t) as [t0 |]; [| congruence].
      rewrite (L1 t0 eq_refl). discriminate. }
    rewrite (IH _ _ H1 Hr1).
    destruct (is_start_of i o) eqn:Ho; [| reflexivity].
    now rewrite (step_running_start_fails o p i t H Hr Ho).
Qed.

Lemma map_name_store (i : nat) (t t' : Timer) (l : list Timer) :
  nth_error l i = Some t -> _name t' = _name t ->
  map _name (store i t' l) = map _name l.
Proof.
  revert i. induction l as [| x l IH]; intros [| i]; simpl; intros H Hn;
    try discriminate.
  - injection H as ->. now rewrite Hn.
  - f_equal. now apply IH.
Qed.

Lemma registered_names_snoc (objs : list Timer) (t : Timer) :
  registered_names (objs ++ [t]) = register (registered_names objs) (_name t).
Proof.
  unfold registered_names. rewrite map_app, fold_left_app. reflexivity.
Qed.

Lemma step_lists_names (o : op) (p : Process) :
  registry p = zero_entries (registered_names (objects p)) ->
  registry (snd (step_ o p)) =
  zero_entries (registered_names (objects (snd (step_ o p)))).
Proof.
  intros Inv. destruct o as [name text logger | j c].
  - rewrite step_new. simpl. rewrite registered_names_snoc. simpl _name.
    rewrite init_registry, Inv. unfold register.
    destruct name as [n |]; [| reflexivity].
    destruct (name_truthy (Some n)); [| reflexivity].
    rewrite dict_get_zero_entries.
    destruct (existsb (String.eqb n) (registered_names (objects p)));
      [reflexivity |].
    unfold zero_entries. now rewrite map_app.
  - destruct (nth_error (objects p) j) as [tj |] eqn:Ej.
    + rewrite (step_call j c p tj Ej). cbv zeta. simpl registry.
      simpl objects.
      pose proof (method_later c (mkState tj (registry p) (clock_reads p)))
        as (Hn & _).
      unfold registered_names.
      rewrite (map_name_store j tj _ _ Ej Hn).
      destruct (method_cases c (mkState tj (registry p) (clock_reads p)))
        as [(_ & _ & E) | (E & _)]; rewrite E; exact Inv.
    + now rewrite step_call_missing by assumption.
Qed.

(** X1.  A running instance stays running, from the same start instant,
    through every script: no method ever assigns [_start_time] back to
    [None]. *)
Theorem running_is_permanent (script : list op) (p : Process) (i : nat)
        (t : Timer) (t0 : float) :
  nth_error (objects p) i = Some t ->
  _start_time t = Some t0 ->
  exists t' : Timer,
    nth_error (objects (snd (run_ script p))) i = Some t' /\
    _start_time t' = Some t0.
Proof.
  intros H Hr.
  destruct (run_instance script p i t H) as (t' & H' & (_ & _ & _ & L)).
  exists t'. auto.
Qed.

(** X2.  An instance keeps the name, the text and the logger it was
    constructed with through every script. *)
Theorem configuration_is_permanent (script : list op) (p : Process) (i : nat)
        (t : Timer) :
  nth_error (objects p) i = Some t ->
  exists t' : Timer,
    nth_error (objects (snd (run_ script p))) i = Some t' /\
    _name t' = _name t /\ _text t' = _text t /\ _logger t' = _logger t.
Proof.
  intros H.
  destruct (run_instance script p i t H) as (t' & H' & (N & T & L & _)).
  exists t'. auto.
Qed.

(** X3.  Over any script, from any process, [start()] returns normally at
    most once for each instance: after that the instance is running for
    good and every later [start()] raises. *)
Theorem start_succeeds_at_most_once (script : list op) (p : Process)
        (i : nat) :
  (successful (is_start_of i) script (fst (run_ script p)) <= 1)%nat.
Proof.
  revert p. induction script as [| o script IH]; intros p.
  - unfold successful. simpl. lia.
  - rewrite run_cons. simpl fst. rewrite successful_cons.
    destruct (is_start_of i o && succeeded (fst (step_ o p))) eqn:E.
    + apply andb_true_iff in E. destruct E as [Ho Hs].
      destruct (step_start_success o p i Ho Hs) as (t & Ht & Hr).
      rewrite (running_never_starts script _ i t Ht Hr). lia.
    + specialize (IH (snd (step_ o p))). lia.
Qed.

(** X4.  The clock is read once by each [start()] that returns normally
    and by nothing else: not by a failing [start()], not by [stop()], not
    by a report, not by a construction. *)
Theorem clock_is_read_once_per_start (script : list op) (p : Process) :
  clock_reads (snd (run_ script p)) =
  (clock_reads p + successful is_start script (fst (run_ script p)))%nat.
Proof.
  revert p. induction script as [| o script IH]; intros p.
  - unfold successful. simpl. lia.
  - rewrite run_cons. simpl fst. simpl snd. rewrite successful_cons.
    rewrite IH, step_reads. lia.
Qed.

(** X5.  A script only appends to the registry: the entries it started
    with keep their values and their order, and every entry added has the
    integer value [0]. *)
Theorem registry_only_gains_zero_entries (script : list op) (p : Process) :
  exists ext : dict,
    registry (snd (run_ script p)) = (registry p ++ ext)%list /\
    forallb (fun item => is_zero (snd item)) ext = true.
Proof.
  revert p. induction script as [| o script IH]; intros p.
  - exists []. simpl. now rewrite app_nil_r.
  - rewrite run_cons. simpl snd.
    destruct (step_registry o p) as (e1 & E1 & Z1).
    destruct (IH (snd (step_ o p))) as (e2 & E2 & Z2).
    exists (e1 ++ e2)%list. split.
    + now rewrite E2, E1, app_assoc.
    + now rewrite forallb_app, Z1, Z2.
Qed.

(** X6.  From a fresh class, after any script the registry holds exactly
    the non-empty names that were given to constructors, each once, in the
    order in which they were first given, and each with the value [0]:
    instances of one name share one entry. *)
Theorem registry_lists_constructed_names (script : list op) :
  registry (snd (run_ script initial)) =
  zero_entries (registered_names (objects (snd (run_ script initial)))).
Proof.
  assert (G : forall p : Process,
             registry p = zero_entries (registered_names (objects p)) ->
             registry (snd (run_ script p)) =
             zero_entries (registered_names (objects (snd (run_ script p))))).
  { induction script as [| o script IH]; intros p Inv.
    - exact Inv.
    - rewrite run_cons. simpl snd. apply IH. now apply step_lists_names. }
  apply G. reflexivity.
Qed.

(** X9.  A method call on one instance leaves the registry, the number of
    instances and every other instance as they were. *)
Theorem call_frame (i : nat) (c : call) (p : Process) :
  registry (snd (step_ (Call i c) p)) = registry p /\
  length (objects (snd (step_ (Call i c) p))) = length (objects p) /\
  (forall j : nat,
      j <> i ->
      nth_error (objects (snd (step_ (Call i c) p))) j =
      nth_error (objects p) j).
Proof.
  destruct (nth_error (objects p) i) as [t |] eqn:E.
  - rewrite (step_call i c p t E). cbv zeta. cbn [fst snd].
    simpl registry. simpl objects.
    repeat split.
    + destruct (method_cases c (mkState t (registry p) (clock_reads p)))
        as [(_ & _ & Em) | (Em & _)]; now rewrite Em.
    + apply length_store.
    + intros j Hj. apply nth_error_store_other. congruence.
  - rewrite step_call_missing by assumption. simpl. auto.
Qed.

End Runs.

Lemma call_raises_only_witness : raises_only (Report None) TypeError.
Proof.
  apply (call_raises_only sample_clock sample_float_repr sample_object_repr
           sample_format (Report None) (mkState running_timer [] 1) TypeError).
  reflexivity.
Defined.

Lemma running_is_permanent_witness :
  exists t' : Timer,
    nth_error
      (objects
         (snd (run sample_clock sample_float_repr sample_object_repr
                   sample_format
                   [Call 0 Stop; Call 0 Start; Call 0 (Report None);
                    New (Some "x") default_text None; Call 0 Stop]
                   (mkProcess [running_timer] [] 1)))) 0 = Some t' /\
    _start_time t' = Some 1%float.
Proof.
  apply (running_is_permanent sample_clock sample_float_repr
           sample_object_repr sample_format _ _ 0%nat running_timer 1%float);
    reflexivity.
Defined.

Lemma configuration_is_permanent_witness :
  exists t' : Timer,
    nth_error
      (objects
         (snd (run sample_clock sample_float_repr sample_object_repr
                   sample_format
                   [Call 0 Start; Call 0 Stop; Call 0 (Report (Some "y"))]
                   (mkProcess [timer_x] [("x", VInt 0)] 0)))) 0 = Some t' /\
    _name t' = Some "x" /\ _text t' = default_text /\ _logger t' = None.
Proof.
  apply (configuration_is_permanent sample_clock sample_float_repr
           sample_object_repr sample_format _ _ 0%nat timer_x).
  reflexivity.
Defined.

Lemma call_frame_witness :
  nth_error
    (objects
       (snd (step sample_clock sample_float_repr sample_object_repr
                  sample_format (Call 0 Start)
                  (mkProcess [idle_timer; timer_x] [("x", VInt 0)] 0)))) 1 =
  Some timer_x.
Proof.
  apply (proj2 (proj2 (call_frame sample_clock sample_float_repr
                         sample_object_repr sample_format 0%nat Start
                         (mkProcess [idle_timer; timer_x] [("x", VInt 0)] 0)))
           1%nat).
  discriminate.
Defined.

(** ** Construction, scoped block and report, once more *)

(** X7.  Constructing a second timer with the same name changes nothing in
    the registry: the entry of the first construction is kept, whatever the
    text and the logger of the second. *)
Theorem registration_is_idempotent
        (name : option string) (text1 text2 : string)
        (logger1 logger2 : option nat) (d : dict) :
  snd (__init__ name text2 logger2 (snd (__init__ name text1 logger1 d))) =
  snd (__init__ name text1 logger1 d).
Proof.
  rewrite !init_registry.
  destruct name as [n |]; [| reflexivity].
  destruct (name_truthy (Some n)); [| reflexivity].
  destruct (dict_get n d) as [v |] eqn:E.
  - now rewrite E.
  - now rewrite (dict_get_last n (VInt 0) d E).
Qed.

(** X10.  On a running timer neither the scoped block nor the decorated
    function runs its body: [__enter__] raises AlreadyRunning and the state
    is what it was. *)
Theorem scoped_block_on_running_timer
        (clock : nat -> float) (Args : Type) (body : M value)
        (funcion : Args -> M value) (args : Args) (s : State) :
  _start_time (self s) <> None ->
  with_self clock body s = (inl AlreadyRunning, s) /\
  __call__ clock funcion args s = (inl AlreadyRunning, s).
Proof.
  intros H. unfold __call__, with_self, __enter__, bind.
  now rewrite (start_running clock s H).
Qed.

Lemma scoped_block_on_running_timer_witness :
  with_self sample_clock (ret (VInt 42)) (mkState running_timer [] 1) =
    (inl AlreadyRunning, mkState running_timer [] 1) /\
  __call__ sample_clock (fun n : Z => ret (VInt (n + 1))) 41
           (mkState running_timer [] 1) =
    (inl AlreadyRunning, mkState running_timer [] 1).
Proof.
  apply (scoped_block_on_running_timer sample_clock Z (ret (VInt 42))
           (fun n : Z => ret (VInt (n + 1))) 41 (mkState running_timer [] 1)).
  simpl. discriminate.
Defined.

(** X11.  On an idle timer the scoped block runs its body exactly once,
    from the state right after [start()], and keeps whatever the body did
    to the state; but whether the body returned or raised, the block ends
    in the exception of [stop()]: the [TypeError] of line 66 if the body
    left the timer running, NotRunning otherwise. *)
Theorem scoped_block_on_idle_timer
        (clock : nat -> float) (body : M value) (s : State) :
  _start_time (self s) = None ->
  with_self clock body s =
  (inl (match _start_time (self (snd (body (started clock s)))) with
        | Some _ => TypeError
        | None => NotRunning
        end),
   snd (body (started clock s))).
Proof.
  intros H. unfold with_self, __enter__, __exit__, bind.
  rewrite (start_idle clock s H). unfold ret. fold (started clock s).
  destruct (body (started clock s)) as [[e | v] s2]; rewrite stop_raises;
    reflexivity.
Qed.

Lemma scoped_block_on_idle_timer_witness :
  with_self sample_clock (set_timers [("seen", VInt 1)] ;; ret (VInt 42))
            (mkState idle_timer [] 0) =
  (inl TypeError,
   mkState (mkTimer (Some 1%float) None default_text None)
           [("seen", VInt 1)] 1).
Proof.
  apply (scoped_block_on_idle_timer sample_clock
           (set_timers [("seen", VInt 1)] ;; ret (VInt 42))
           (mkState idle_timer [] 0)).
  reflexivity.
Defined.

Lemma string_app_empty (a : string) : a ++ "" = a.
Proof.
  induction a as [| ch a IH]; simpl; [reflexivity | now rewrite IH].
Qed.

Lemma report_lines_app (float_repr : float -> string) (object_repr : string)
      (d1 d2 : dict) :
  report_lines float_repr object_repr (d1 ++ d2)%list =
  report_lines float_repr object_repr d1 ++
  report_lines float_repr object_repr d2.
Proof.
  induction d1 as [| item d1 IH]; simpl.
  - reflexivity.
  - now rewrite IH, string_app_assoc.
Qed.

(** X12.  Constructing a timer with a new, non-empty name extends what
    [report()] returns by exactly one line at the end, ["<name>: 0\n"];
    the lines of the earlier entries are unchanged. *)
Theorem report_after_construction
        (float_repr : float -> string) (object_repr : string)
        (str_format : string -> value -> outcome string)
        (name text : string) (logger : option nat) (s : State) :
  name <> "" ->
  dict_get name (timers s) = None ->
  fst (report float_repr object_repr str_format None
              (mkState (self s)
                       (snd (__init__ (Some name) text logger (timers s)))
                       (reads s))) =
  inr (VStr (report_lines float_repr object_repr (timers s)
             ++ name ++ ": 0" ++ newline)).
Proof.
  intros Hne Hd. rewrite init_registry.
  unfold name_truthy. apply String.eqb_neq in Hne. rewrite Hne. simpl negb.
  cbv iota. rewrite Hd.
  rewrite report_all.
  - simpl fst. simpl timers. rewrite report_lines_app.
    do 3 f_equal. unfold report_lines, entry_line. simpl.
    now rewrite string_app_empty.
  - simpl. destruct (timers s); discriminate.
Qed.

Lemma report_after_construction_witness :
  fst (report sample_float_repr sample_object_repr sample_format None
              (mkState idle_timer
                       (snd (__init__ (Some "y") default_text None
                                      [("x", VInt 0)]))
                       0)) =
  inr (VStr ("x: 0" ++ newline ++ "y: 0" ++ newline)).
Proof.
  apply (report_after_construction sample_float_repr sample_object_repr
           sample_format "y" default_text None
           (mkState idle_timer [("x", VInt 0)] 0)).
  - discriminate.
  - reflexivity.
Defined.

(** X13.  No call consults the text, the logger or the name of the
    receiver, nor the template renderer: with the same start instant,
    registry and clock, two receivers get the same outcome from every call.
    In particular the logger is never invoked and the text never rendered. *)
Theorem outcome_ignores_configuration
        (clock : nat -> float) (float_repr : float -> string)
        (object_repr : string)
        (format1 format2 : string -> value -> outcome string)
        (c : call) (start_time : option float)
        (name1 name2 : option string) (text1 text2 : string)
        (logger1 logger2 : option nat) (d : dict) (k : nat) :
  fst (method clock float_repr object_repr format1 c
              (mkState (mkTimer start_time name1 text1 logger1) d k)) =
  fst (method clock float_repr object_repr format2 c
              (mkState (mkTimer start_time name2 text2 logger2) d k)).
Proof.
  destruct c as [| | [name |] | name]; unfold method.
  - destruct start_time; reflexivity.
  - rewrite !stop_raises. reflexivity.
  - reflexivity.
  - destruct d as [| item d].
    + rewrite !report_fallback by reflexivity. rewrite !stop_raises.
      reflexivity.
    + rewrite !report_all by discriminate. reflexivity.
  - reflexivity.
Qed.
